(** * multi-map-backend: the places and routes relays of [src/api/mod.rs]

    A shallow embedding of the two axum handlers [get_places] and
    [get_routes], of the serde-derived (de)serialisers of their request and
    response structs, and of the reqwest request builder they drive.

    - JSON documents are trees ([json]); the textual layer of serde_json is
      not modelled: a body that is not a JSON document (or whose bytes could
      not be read) is an upstream body [inl msg].
    - [f32] values are abstract: the class [Float32] supplies serde's
      conversion of a JSON number into an [f32] ([v as f32]), the rendering
      of an [f32] back into JSON (a number, or [null] when not finite) and its
      [Debug] text.  [float32_int] is the instance on integer literals.
    - The HTTP client is an oracle [up : http_request -> upstream_outcome];
      every request actually sent is recorded, as is every [println!]. *)

From Stdlib Require Import String Ascii List ZArith Bool Lia.
Import ListNotations.
Open Scope string_scope.

(** ** JSON trees *)

Local Unset Elimination Schemes.

Inductive json (num : Type) : Type :=
| JNull
| JBool (b : bool)
| JNum (n : num)
| JStr (s : string)
| JArr (vs : list (json num))
| JObj (kvs : list (string * json num)).
Local Set Elimination Schemes.

Arguments JNull {num}.
Arguments JBool {num} b.
Arguments JNum {num} n.
Arguments JStr {num} s.
Arguments JArr {num} vs.
Arguments JObj {num} kvs.

(** First binding of a key in an association list (serde_json objects). *)
Fixpoint assoc {A : Type} (k : string) (l : list (string * A)) : option A :=
  match l with
  | [] => None
  | (k', v) :: rest => if String.eqb k k' then Some v else assoc k rest
  end.

(** Single-precision floats, as the program uses them through serde. *)
Class Float32 (num f32 : Type) := {
  (** serde's [f32] visitor on a JSON number: [v as f32] *)
  f32_of_num : num -> f32;
  (** [Value::from(f32)] / [serialize_f32]: a number, [null] if not finite *)
  json_of_f32 : f32 -> json num;
  (** [{:?}] of an [f32] *)
  debug_f32 : f32 -> string
}.

(** ** Errors (reqwest and serde), with their [Display] text *)

Inductive err :=
| ErrBuilder (msg : string)
| ErrNetwork (msg : string)
| ErrDecode (msg : string)
| ErrInvalidType
| ErrInvalidLength (n : nat)
| ErrMissingField (f : string)
| ErrDuplicateField (f : string).

Definition backtick : string := String (ascii_of_nat 96) EmptyString.
Definition dquote : string := String (ascii_of_nat 34) EmptyString.

Fixpoint digits_of_nat (fuel n : nat) (acc : string) : string :=
  match fuel with
  | O => acc
  | S fuel' =>
      let d := String (ascii_of_nat (48 + Nat.modulo n 10)) EmptyString in
      if Nat.ltb n 10 then d ++ acc
      else digits_of_nat fuel' (Nat.div n 10) (d ++ acc)
  end.

Definition string_of_nat (n : nat) : string := digits_of_nat (S n) n "".

Definition show_err (e : err) : string :=
  match e with
  | ErrBuilder m => "builder error: " ++ m
  | ErrNetwork m => "error sending request: " ++ m
  | ErrDecode m => "error decoding response body: " ++ m
  | ErrInvalidType => "invalid type"
  | ErrInvalidLength n => "invalid length " ++ string_of_nat n
  | ErrMissingField f => "missing field " ++ backtick ++ f ++ backtick
  | ErrDuplicateField f => "duplicate field " ++ backtick ++ f ++ backtick
  end.

Definition result (A : Type) : Type := (err + A)%type.

Notation "'let?' x ':=' m 'in' k" :=
  (match m with inl e => inl e | inr x => k end)
  (at level 200, x name, m at level 100, k at level 200).

(** ** Strings *)

(** [str::starts_with] and [str::contains]. *)
Fixpoint starts_with (s pre : string) : bool :=
  match pre, s with
  | EmptyString, _ => true
  | String c pre', String d s' => Ascii.eqb c d && starts_with s' pre'
  | String _ _, EmptyString => false
  end.

Fixpoint str_contains (s needle : string) : bool :=
  starts_with s needle ||
  match s with
  | EmptyString => false
  | String _ s' => str_contains s' needle
  end.

Definition ascii_lower (c : ascii) : ascii :=
  let n := nat_of_ascii c in
  if (65 <=? n)%nat && (n <=? 90)%nat then ascii_of_nat (n + 32) else c.

Fixpoint str_lower (s : string) : string :=
  match s with
  | EmptyString => EmptyString
  | String c s' => String (ascii_lower c) (str_lower s')
  end.

(** ** Constants of [src/api/mod.rs] *)

Definition CONTENT_TYPE : string := "Content-type".
Definition JSON_TYPE : string := "application/json".
Definition GOOGLE_FIELD_MASK_HEADER : string := "X-Goog-FieldMask".
Definition FIELD_MASK : string :=
  "places.id,places.displayName,places.formattedAddress,places.location".
Definition GOOGLE_API_KEY_HEADER : string := "X-Goog-Api-Key".
Definition GOOGLE_URL : string :=
  "https://places.googleapis.com/v1/places:searchText".
Definition GOOGLE_ROUTES_URL : string :=
  "https://routes.googleapis.com/directions/v2:computeRoutes".
Definition MAX_RESULT_COUNT_KEY : string := "maxResultCount".
Definition MAX_RESULT_COUNT_VALUE : string := "10".
Definition ROUTE_FIELD_MASK : string :=
  "routes.duration,routes.distanceMeters,routes.polyline.encodedPolyline".

(** The fixed 500 body of both handlers. *)
Definition GENERIC_ERROR : string := "Something went wrong. Try again later".

(** ** Data model and serde derives *)

Section Serde.
Context {num f32 : Type} `{Float32 num f32}.
Local Abbreviation json := (json num).

Record DisplayName := { text : string; language_code : option string }.
Record Location := { latitude : f32; longitude : f32 }.
Record GooglePlace := {
  id : string;
  formatted_address : string;
  price_level : option string;
  display_name : DisplayName;
  location : Location
}.
Record GooglePlacesReponse := { places : option (list GooglePlace) }.
Record GooglePlacesRequest := { text_query : string }.
Record GetRouteRequestBody := {
  origin_location : Location;
  destination_location : Location;
  departure_time : string
}.
Record Polyline := { encoded_polyline : string }.
Record RoutesResponse := {
  distance_meters : f32;
  duration : string;
  polyline : Polyline
}.
Record GetRoutesReponse := { routes : list RoutesResponse }.

(** Derived [Deserialize] for a struct: serde_json hands a JSON object to
    [visit_map] and a JSON array to [visit_seq]; anything else is an invalid
    type.  In map form a known key seen twice is a duplicate field and an
    unknown key is skipped ([IgnoredAny]); in seq form the elements are the
    fields in declaration order and their number must match.  The raw values
    found are returned by field name; the fields are then deserialised in
    declaration order (when a struct has several faults at once, the one
    reported may differ from serde's, which reports in input order). *)
Fixpoint collect_fields (fields : list string) (kvs : list (string * json))
    (seen : list (string * json)) : result (list (string * json)) :=
  match kvs with
  | [] => inr seen
  | (k, v) :: rest =>
      if existsb (String.eqb k) fields then
        match assoc k seen with
        | Some _ => inl (ErrDuplicateField k)
        | None => collect_fields fields rest (app seen [(k, v)])
        end
      else collect_fields fields rest seen
  end.

Definition struct_fields (fields : list string) (j : json)
    : result (list (string * json)) :=
  match j with
  | JObj kvs => collect_fields fields kvs []
  | JArr vs =>
      if Nat.eqb (length vs) (length fields) then inr (combine fields vs)
      else inl (ErrInvalidLength (length vs))
  | _ => inl ErrInvalidType
  end.

Definition deser_string (j : json) : result string :=
  match j with JStr s => inr s | _ => inl ErrInvalidType end.

Definition deser_f32 (j : json) : result f32 :=
  match j with JNum n => inr (f32_of_num n) | _ => inl ErrInvalidType end.

Definition deser_option {A} (d : json -> result A) (j : json)
    : result (option A) :=
  match j with
  | JNull => inr None
  | _ => let? a := d j in inr (Some a)
  end.

Fixpoint deser_seq {A} (d : json -> result A) (vs : list json)
    : result (list A) :=
  match vs with
  | [] => inr []
  | v :: rest =>
      let? a := d v in
      let? l := deser_seq d rest in
      inr (a :: l)
  end.

Definition deser_vec {A} (d : json -> result A) (j : json) : result (list A) :=
  match j with JArr vs => deser_seq d vs | _ => inl ErrInvalidType end.

(** A required field: [missing_field] when absent. *)
Definition field_required {A} (f : string) (d : json -> result A)
    (raw : list (string * json)) : result A :=
  match assoc f raw with
  | Some v => d v
  | None => inl (ErrMissingField f)
  end.

(** An [Option] field: absent means [None]. *)
Definition field_optional {A} (f : string) (d : json -> result A)
    (raw : list (string * json)) : result (option A) :=
  match assoc f raw with
  | Some v => deser_option d v
  | None => inr None
  end.

Definition deser_DisplayName (j : json) : result DisplayName :=
  let? raw := struct_fields ["text"; "languageCode"] j in
  let? t := field_required "text" deser_string raw in
  let? lc := field_optional "languageCode" deser_string raw in
  inr {| text := t; language_code := lc |}.

Definition deser_Location (j : json) : result Location :=
  let? raw := struct_fields ["latitude"; "longitude"] j in
  let? la := field_required "latitude" deser_f32 raw in
  let? lo := field_required "longitude" deser_f32 raw in
  inr {| latitude := la; longitude := lo |}.

Definition deser_GooglePlace (j : json) : result GooglePlace :=
  let? raw := struct_fields
      ["id"; "formattedAddress"; "priceLevel"; "displayName"; "location"] j in
  let? i := field_required "id" deser_string raw in
  let? fa := field_required "formattedAddress" deser_string raw in
  let? pl := field_optional "priceLevel" deser_string raw in
  let? dn := field_required "displayName" deser_DisplayName raw in
  let? lo := field_required "location" deser_Location raw in
  inr {| id := i; formatted_address := fa; price_level := pl;
         display_name := dn; location := lo |}.

Definition deser_GooglePlacesReponse (j : json) : result GooglePlacesReponse :=
  let? raw := struct_fields ["places"] j in
  let? ps := field_optional "places" (deser_vec deser_GooglePlace) raw in
  inr {| places := ps |}.

Definition deser_Polyline (j : json) : result Polyline :=
  let? raw := struct_fields ["encodedPolyline"] j in
  let? e := field_required "encodedPolyline" deser_string raw in
  inr {| encoded_polyline := e |}.

Definition deser_RoutesResponse (j : json) : result RoutesResponse :=
  let? raw := struct_fields ["distanceMeters"; "duration"; "polyline"] j in
  let? d := field_required "distanceMeters" deser_f32 raw in
  let? du := field_required "duration" deser_string raw in
  let? p := field_required "polyline" deser_Polyline raw in
  inr {| distance_meters := d; duration := du; polyline := p |}.

Definition deser_GetRoutesReponse (j : json) : result GetRoutesReponse :=
  let? raw := struct_fields ["routes"] j in
  let? rs := field_required "routes" (deser_vec deser_RoutesResponse) raw in
  inr {| routes := rs |}.

(** serde_urlencoded into [GooglePlacesRequest] (no [rename]: the key is the
    Rust field name); every query value is a string. *)
Definition deser_GooglePlacesRequest (query : list (string * string))
    : result GooglePlacesRequest :=
  let? raw := struct_fields ["text_query"]
      (JObj (map (fun kv => (fst kv, JStr (snd kv))) query)) in
  let? t := field_required "text_query" deser_string raw in
  inr {| text_query := t |}.

(** Derived [Serialize]: fields in declaration order, renamed keys, [None]
    as [null]. *)
Definition ser_option {A} (s : A -> json) (o : option A) : json :=
  match o with Some a => s a | None => JNull end.

Definition ser_DisplayName (d : DisplayName) : json :=
  JObj [("text", JStr (text d));
        ("languageCode", ser_option JStr (language_code d))].

Definition ser_Location (l : Location) : json :=
  JObj [("latitude", json_of_f32 (latitude l));
        ("longitude", json_of_f32 (longitude l))].

Definition ser_GooglePlace (p : GooglePlace) : json :=
  JObj [("id", JStr (id p));
        ("formattedAddress", JStr (formatted_address p));
        ("priceLevel", ser_option JStr (price_level p));
        ("displayName", ser_DisplayName (display_name p));
        ("location", ser_Location (location p))].

Definition ser_GooglePlacesReponse (r : GooglePlacesReponse) : json :=
  JObj [("places", ser_option (fun ps => JArr (map ser_GooglePlace ps))
                              (places r))].

Definition ser_Polyline (p : Polyline) : json :=
  JObj [("encodedPolyline", JStr (encoded_polyline p))].

Definition ser_RoutesResponse (r : RoutesResponse) : json :=
  JObj [("distanceMeters", json_of_f32 (distance_meters r));
        ("duration", JStr (duration r));
        ("polyline", ser_Polyline (polyline r))].

Definition ser_GetRoutesReponse (r : GetRoutesReponse) : json :=
  JObj [("routes", JArr (map ser_RoutesResponse (routes r)))].

(** [#[derive(Debug)]] of the routes request body (printed by [get_routes]). *)
Definition debug_Location (l : Location) : string :=
  "Location { latitude: " ++ debug_f32 (latitude l) ++
  ", longitude: " ++ debug_f32 (longitude l) ++ " }".

Definition debug_GetRouteRequestBody (b : GetRouteRequestBody) : string :=
  "GetRouteRequestBody { origin_location: " ++
  debug_Location (origin_location b) ++
  ", destination_location: " ++ debug_Location (destination_location b) ++
  ", departure_time: " ++ dquote ++ departure_time b ++ dquote ++ " }".

End Serde.

(** ** HTTP: reqwest's request builder and the handler effects *)

Section Http.
Context {num f32 : Type} `{Float32 num f32}.
Local Abbreviation json := (json num).

(** An [http::HeaderMap]: each (lower-case) name with its values, names in
    order of first insertion. *)
Definition header_map := list (string * list string).

Fixpoint hm_contains (k : string) (hm : header_map) : bool :=
  match hm with
  | [] => false
  | (k', _) :: rest => String.eqb k k' || hm_contains k rest
  end.

(** [HeaderMap::insert]: replaces every value of the name. *)
Fixpoint hm_insert (k v : string) (hm : header_map) : header_map :=
  match hm with
  | [] => [(k, [v])]
  | (k', vs) :: rest =>
      if String.eqb k k' then (k', [v]) :: rest else (k', vs) :: hm_insert k v rest
  end.

(** [HeaderMap::append]: adds one more value under the name. *)
Fixpoint hm_append (k v : string) (hm : header_map) : header_map :=
  match hm with
  | [] => [(k, [v])]
  | (k', vs) :: rest =>
      if String.eqb k k' then (k', app vs [v]) :: rest else (k', vs) :: hm_append k v rest
  end.

(** Number of header fields (lines on the wire): [HeaderMap::len]. *)
Definition hm_len (hm : header_map) : nat :=
  fold_right (fun kv n => length (snd kv) + n)%nat 0%nat hm.

Record http_request := {
  method : string;
  url : string;
  headers : header_map;
  req_body : option json
}.

(** [HeaderValue::try_from]: visible ASCII, bytes >= 128, space and tab. *)
Definition header_byte_ok (c : ascii) : bool :=
  let n := nat_of_ascii c in
  ((32 <=? n)%nat && negb (n =? 127)%nat) || (n =? 9)%nat.

Definition valid_header_value (s : string) : bool :=
  forallb header_byte_ok (list_ascii_of_string s).

(** A [reqwest::RequestBuilder]: a request under construction, or the
    first builder error. *)
Definition builder := result http_request.

Definition rb_post (u : string) : builder :=
  inr {| method := "POST"; url := u; headers := []; req_body := None |}.

(** [RequestBuilder::json]: sets the body, and [content-type:
    application/json] unless a content type is already present. *)
Definition rb_json (j : json) (b : builder) : builder :=
  let? r := b in
  let hs := if hm_contains "content-type" (headers r) then headers r
            else hm_insert "content-type" "application/json" (headers r) in
  inr {| method := method r; url := url r; headers := hs; req_body := Some j |}.

(** [RequestBuilder::header]: the name is parsed into a lower-case
    [HeaderName] (the names used here are all valid tokens), the value is
    checked, and the pair is APPENDED to the map. *)
Definition rb_header (name value : string) (b : builder) : builder :=
  let? r := b in
  if valid_header_value value then
    inr {| method := method r; url := url r;
           headers := hm_append (str_lower name) value (headers r);
           req_body := req_body r |}
  else inl (ErrBuilder "failed to parse header value").

(** What the provider does with one request: a network-level failure, or a
    response with its status and its body, which is a JSON document or could
    not be read / is not JSON ([inl msg]). *)
Inductive upstream_outcome :=
| UpNetworkError (msg : string)
| UpResponse (status : Z) (body : (string + json)%type).

(** [Response::json::<T>()]: the status is not looked at; every failure of
    [serde_json::from_slice] is wrapped as a decode error, whose text is
    "error decoding response body: " and serde's message.  serde_json ends
    that message with the position, " at line L column C", of the body's
    text, which is not modelled. *)
Definition response_json {A} (d : json -> result A) (st : Z)
    (body : (string + json)%type) : result A :=
  match body with
  | inl m => inl (ErrDecode m)
  | inr j =>
      match d j with
      | inl e => inl (ErrDecode (show_err e))
      | inr a => inr a
      end
  end.

Inductive resp_body := BodyText (s : string) | BodyJson (j : json).

Record http_response := { status : Z; body : resp_body }.

(** The effects a request leaves behind: the upstream requests sent, in
    order, and the lines printed. *)
Record world := { sent : list http_request; logs : list string }.

Definition M (A : Type) : Type := world -> A * world.

Definition ret {A} (a : A) : M A := fun w => (a, w).

Definition bind {A B} (m : M A) (k : A -> M B) : M B :=
  fun w => let (a, w') := m w in k a w'.

Definition println (s : string) : M unit :=
  fun w => (tt, {| sent := sent w; logs := app (logs w) [s] |}).

(** [RequestBuilder::send().await]: a builder error fails at once, with
    nothing sent; otherwise the request goes out exactly once. *)
Definition send (up : http_request -> upstream_outcome) (b : builder)
    : M (result (Z * (string + json))) :=
  match b with
  | inl e => ret (inl e)
  | inr r => fun w =>
      (match up r with
       | UpNetworkError m => inl (ErrNetwork m)
       | UpResponse st bd => inr (st, bd)
       end,
       {| sent := app (sent w) [r]; logs := logs w |})
  end.

End Http.

Notation "'let!' x ':=' m 'in' k" := (bind m (fun x => k))
  (at level 200, x name, m at level 100, k at level 200).
Notation "m ;; k" := (bind m (fun _ => k)) (at level 100, right associativity).

(** ** The handlers *)

Section Handlers.
Context {num f32 : Type} `{Float32 num f32}.
Local Abbreviation json := (json num).

(** [AppState]: the shared [reqwest::Client] is the oracle [up] passed to
    each handler; the key is read once at start-up. *)
Record AppState := { google_key : string }.

(** [#[validate(does_not_contain = "undefined")]] on [text_query]: the only
    rule of the request struct. *)
Definition validate (p : GooglePlacesRequest) : bool :=
  negb (str_contains (text_query p) "undefined").

(** The two-entry [HashMap] sent as the search payload.  Its iteration
    order comes from the map's random hasher: [order] says which key is
    serialised first. *)
Definition places_payload (order : bool) (q : string) : json :=
  let e1 := ("textQuery", JStr q) in
  let e2 := (MAX_RESULT_COUNT_KEY, JStr MAX_RESULT_COUNT_VALUE) in
  JObj (if order then [e1; e2] else [e2; e1]).

Definition places_request (s : AppState) (order : bool) (q : string)
    : builder :=
  rb_header GOOGLE_API_KEY_HEADER (google_key s)
    (rb_header CONTENT_TYPE JSON_TYPE
      (rb_header GOOGLE_FIELD_MASK_HEADER FIELD_MASK
        (rb_json (places_payload order q) (rb_post GOOGLE_URL)))).

Definition internal_error : @http_response num :=
  {| status := 500; body := BodyText GENERIC_ERROR |}.

(** [get_places], after axum has extracted [State] and [Query]. *)
Definition get_places (s : AppState) (p : GooglePlacesRequest) (order : bool)
    (up : http_request -> upstream_outcome) : M http_response :=
  if negb (validate p) then
    ret {| status := 400; body := BodyText "Invalid request" |}
  else
    let! request := send up (places_request s order (text_query p)) in
    match request with
    | inr (st, bd) =>
        match response_json deser_GooglePlacesReponse st bd with
        | inr google_places =>
            ret {| status := 200;
                   body := BodyJson (ser_GooglePlacesReponse google_places) |}
        | inl e =>
            println ("Error parsing response from Google Places API: " ++
                     show_err e) ;;
            ret internal_error
        end
    | inl e =>
        println ("Error sending request to Google Places API: " ++
                 show_err e) ;;
        ret internal_error
    end.

(** The [POST /places] route: the [Query] extractor reads the URI's query
    pairs (already percent-decoded) and never the request body; its
    rejection is a 400. *)
Definition places_route (s : AppState) (query : list (string * string))
    (request_body : string) (order : bool)
    (up : http_request -> upstream_outcome) : M http_response :=
  match deser_GooglePlacesRequest (num:=num) query with
  | inl e =>
      ret {| status := 400;
             body := BodyText ("Failed to deserialize query string: " ++
                               show_err e) |}
  | inr p => get_places s p order up
  end.

(** The [json!] payload of [get_routes].  serde_json's [Map] keeps its keys
    sorted (a [BTreeMap]), so the members are listed in key order. *)
Definition lat_lng (l : Location) : json :=
  JObj [("location",
         JObj [("latLng",
                JObj [("latitude", json_of_f32 (latitude l));
                      ("longitude", json_of_f32 (longitude l))])])].

Definition routes_payload (b : GetRouteRequestBody) : json :=
  JObj [("computeAlternativeRoutes", JBool true);
        ("departureTime", JStr (departure_time b));
        ("destination", lat_lng (destination_location b));
        ("languageCode", JStr "en-US");
        ("origin", lat_lng (origin_location b));
        ("routeModifiers",
           JObj [("avoidFerries", JBool false);
                 ("avoidHighways", JBool false);
                 ("avoidTolls", JBool false)]);
        ("routingPreference", JStr "TRAFFIC_AWARE_OPTIMAL");
        ("travelMode", JStr "DRIVE");
        ("units", JStr "METRIC")].

Definition routes_request (s : AppState) (b : GetRouteRequestBody) : builder :=
  rb_header GOOGLE_API_KEY_HEADER (google_key s)
    (rb_header CONTENT_TYPE JSON_TYPE
      (rb_header GOOGLE_FIELD_MASK_HEADER ROUTE_FIELD_MASK
        (rb_json (routes_payload b) (rb_post GOOGLE_ROUTES_URL)))).

(** [get_routes], after axum has extracted [State] and the [Json] body. *)
Definition get_routes (s : AppState) (b : GetRouteRequestBody)
    (up : http_request -> upstream_outcome) : M http_response :=
  println ("body: " ++ debug_GetRouteRequestBody b) ;;
  let! request := send up (routes_request s b) in
  match request with
  | inr (st, bd) =>
      match response_json deser_GetRoutesReponse st bd with
      | inr google_places =>
          ret {| status := 200;
                 body := BodyJson (ser_GetRoutesReponse google_places) |}
      | inl e =>
          println ("Error parsing response from Google Routes API: " ++
                   show_err e) ;;
          ret internal_error
      end
  | inl e =>
      println ("Error sending request to Google Routes API: " ++ show_err e) ;;
      ret internal_error
  end.

End Handlers.

(** Member lookup in a JSON object. *)
Definition json_get {num : Type} (k : string) (j : json num) : option (json num) :=
  match j with JObj kvs => assoc k kvs | _ => None end.

(** The members of an object under one key. *)
Definition members {A : Type} (k : string) (kvs : list (string * A))
    : list (string * A) :=
  filter (fun kv => String.eqb (fst kv) k) kvs.

(** The provider's JSON for one route, as the Routes API returns it. *)
Definition route_json {num : Type} (d : num) (du pl : string) : json num :=
  JObj [("distanceMeters", JNum d); ("duration", JStr du);
        ("polyline", JObj [("encodedPolyline", JStr pl)])].

(** A request starts with nothing sent and nothing printed. *)
Definition w0 {num : Type} : @world num := {| sent := []; logs := [] |}.

(** ** [f32] on integer literals

    serde_json reads an integer literal in the [u64]/[i64] range as such and
    casts it with [v as f32]: round to nearest (ties to even) on a 24-bit
    significand.  Below 2^24 every integer is exact. *)
Definition f32_round_int (z : Z) : Z :=
  (let a := Z.abs z in
  if a <? 2 ^ 24 then z
  else
    let e := Z.log2 a - 23 in
    let m := Z.shiftr a e in
    let r := a - Z.shiftl m e in
    let half := Z.shiftl 1 (e - 1) in
    let m' := if (half <? r) || ((r =? half) && Z.odd m) then m + 1 else m in
    Z.sgn z * Z.shiftl m' e)%Z.

Definition string_of_Z (z : Z) : string :=
  (if (z <? 0)%Z then "-" else "") ++ string_of_nat (Z.to_nat (Z.abs z)).

#[export] Instance float32_int : Float32 Z Z := {
  f32_of_num := f32_round_int;
  json_of_f32 := fun z => JNum z;
  debug_f32 := fun z => string_of_Z z ++ ".0"
}.

(** ** The router of [src/main.rs] *)

Section App.
Context {num f32 : Type} `{Float32 num f32}.
Local Abbreviation json := (json num).






End App.


(** An [f32] that survives being written to JSON and read back. *)
Definition f32_round_trips {num f32 : Type} `{Float32 num f32} (x : f32) : Prop :=
  match json_of_f32 x with JNum n => f32_of_num n = x | _ => False end.

Definition place_f32s {f32 : Type} (p : GooglePlace (f32:=f32)) : list f32 :=
  [latitude (location p); longitude (location p)].


(** * Properties *)

Section Lemmas.
Context {num f32 : Type} `{Float32 num f32}.
Local Abbreviation json := (json num).

Lemma places_request_ok (s : AppState) (order : bool) (q : string) :
  valid_header_value (google_key s) = true ->
  places_request (num:=num) s order q =
  inr {| method := "POST"; url := GOOGLE_URL;
         headers := [("content-type", [JSON_TYPE; JSON_TYPE]);
                     ("x-goog-fieldmask", [FIELD_MASK]);
                     ("x-goog-api-key", [google_key s])];
         req_body := Some (places_payload order q) |}.
Proof.
  intros Hk. unfold places_request, rb_header, rb_json, rb_post.
  cbn -[valid_header_value]. rewrite Hk. reflexivity.
Qed.

Lemma routes_request_ok (s : AppState) (b : GetRouteRequestBody) :
  valid_header_value (google_key s) = true ->
  routes_request (num:=num) s b =
  inr {| method := "POST"; url := GOOGLE_ROUTES_URL;
         headers := [("content-type", [JSON_TYPE; JSON_TYPE]);
                     ("x-goog-fieldmask", [ROUTE_FIELD_MASK]);
                     ("x-goog-api-key", [google_key s])];
         req_body := Some (routes_payload b) |}.
Proof.
  intros Hk. unfold routes_request, rb_header, rb_json, rb_post.
  cbn -[valid_header_value routes_payload]. rewrite Hk. reflexivity.
Qed.

Lemma assoc_app_single {A : Type} (k k' : string) (v : A) l :
  assoc k (app l [(k', v)]) =
  match assoc k l with
  | Some x => Some x
  | None => if String.eqb k k' then Some v else None
  end.
Proof.
  induction l as [|[k0 v0] l IH]; simpl; [reflexivity|].
  destruct (String.eqb k k0); [reflexivity|exact IH].
Qed.

(** A successful struct visit keeps, for each known field, the first value
    it met. *)
Lemma collect_fields_assoc (fields : list string) :
  forall (kvs seen out : list (string * json)),
  collect_fields fields kvs seen = inr out ->
  forall k, In k fields ->
  assoc k out = match assoc k seen with
                | Some v => Some v
                | None => assoc k kvs
                end.
Proof.
  induction kvs as [|[k' v] rest IH]; intros seen out Hc k Hk; simpl in Hc.
  - injection Hc as <-. destruct (assoc k seen); reflexivity.
  - destruct (existsb (String.eqb k') fields) eqn:E.
    + destruct (assoc k' seen) eqn:Es; [discriminate|].
      rewrite (IH _ _ Hc k Hk), assoc_app_single. simpl.
      destruct (assoc k seen); [reflexivity|].
      destruct (String.eqb k k'); reflexivity.
    + rewrite (IH _ _ Hc k Hk). simpl.
      assert (Hne : String.eqb k k' = false).
      { destruct (String.eqb k k') eqn:Ekk; [|reflexivity].
        apply String.eqb_eq in Ekk; subst k'.
        assert (Hex : existsb (String.eqb k) fields = true).
        { apply existsb_exists. exists k. split; [exact Hk|].
          apply String.eqb_refl. }
        congruence. }
      rewrite Hne. reflexivity.
Qed.

Lemma collect_single_absent (f : string) :
  forall (kvs seen : list (string * json)),
  members f kvs = [] -> collect_fields [f] kvs seen = inr seen.
Proof.
  induction kvs as [|[k v] rest IH]; intros seen Hm; simpl in *; [reflexivity|].
  rewrite orb_false_r. destruct (String.eqb k f); [discriminate|].
  apply IH; exact Hm.
Qed.

Lemma collect_single_one (f : string) (v : json) :
  forall (kvs seen : list (string * json)),
  assoc f seen = None -> members f kvs = [(f, v)] ->
  collect_fields [f] kvs seen = inr (app seen [(f, v)]).
Proof.
  induction kvs as [|[k w] rest IH]; intros seen Hs Hm; simpl in *;
    [discriminate|].
  rewrite orb_false_r. destruct (String.eqb k f) eqn:E.
  - apply String.eqb_eq in E; subst k. rewrite Hs.
    injection Hm as Hw Hrest. subst w.
    apply collect_single_absent. exact Hrest.
  - apply IH; assumption.
Qed.

(** A successful sequence keeps each element's deserialisation in place. *)
Lemma deser_seq_nth {A : Type} (d : json -> result A) :
  forall vs l i v, deser_seq d vs = inr l -> nth_error vs i = Some v ->
  exists a, d v = inr a /\ nth_error l i = Some a.
Proof.
  induction vs as [|v0 vs IH]; intros l i v Hd Hn.
  - destruct i; discriminate.
  - simpl in Hd. destruct (d v0) as [e|a0] eqn:E0; [discriminate|].
    destruct (deser_seq d vs) as [e|l0] eqn:E1; [discriminate|].
    injection Hd as <-. destruct i as [|i]; simpl in Hn.
    + injection Hn as <-. exists a0. split; [exact E0|reflexivity].
    + exact (IH l0 i v eq_refl Hn).
Qed.

Lemma deser_seq_length {A : Type} (d : json -> result A) :
  forall vs l, deser_seq d vs = inr l -> length l = length vs.
Proof.
  induction vs as [|v0 vs IH]; intros l Hd; simpl in Hd.
  - injection Hd as <-. reflexivity.
  - destruct (d v0); [discriminate|].
    destruct (deser_seq d vs) as [e|l0] eqn:E1; [discriminate|].
    injection Hd as <-. simpl. f_equal. apply IH. reflexivity.
Qed.

(** Once the request is built, [get_places] sends it exactly once and
    answers 200 or the generic 500. *)
Lemma get_places_forward (s : AppState) (p : GooglePlacesRequest)
    (order : bool) (up : http_request -> upstream_outcome) req :
  validate p = true ->
  places_request (num:=num) s order (text_query p) = inr req ->
  sent (snd (get_places s p order up w0)) = [req] /\
  (status (fst (get_places s p order up w0)) = 200%Z \/
   fst (get_places s p order up w0) = internal_error).
Proof.
  intros Hv Hreq. unfold get_places. rewrite Hv. simpl negb. cbv iota.
  unfold bind, send. rewrite Hreq.
  destruct (up req) as [m|st bd]; simpl.
  - split; [reflexivity|right; reflexivity].
  - destruct (response_json deser_GooglePlacesReponse st bd); simpl.
    + split; [reflexivity|right; reflexivity].
    + split; [reflexivity|left; reflexivity].
Qed.

Lemma places_request_err (s : AppState) (order : bool) (q : string) :
  valid_header_value (google_key s) = false ->
  places_request (num:=num) s order q =
  inl (ErrBuilder "failed to parse header value").
Proof.
  intros Hk. unfold places_request, rb_header, rb_json, rb_post.
  cbn -[valid_header_value]. rewrite Hk. reflexivity.
Qed.

Lemma routes_request_body (s : AppState) (b : GetRouteRequestBody) req :
  routes_request (num:=num) s b = inr req ->
  req_body req = Some (routes_payload b).
Proof.
  intros Hr. destruct (valid_header_value (google_key s)) eqn:Hk.
  - rewrite (routes_request_ok s b Hk) in Hr. injection Hr as <-. reflexivity.
  - unfold routes_request, rb_header, rb_json, rb_post in Hr.
    cbn -[valid_header_value routes_payload] in Hr. rewrite Hk in Hr.
    discriminate.
Qed.

Lemma get_routes_sent (s : AppState) (b : GetRouteRequestBody)
    (up : http_request -> upstream_outcome) :
  sent (snd (get_routes (num:=num) s b up w0)) =
  match routes_request s b with inl _ => [] | inr req => [req] end.
Proof.
  unfold get_routes, bind, println, send.
  destruct (routes_request s b) as [e|req]; simpl; [reflexivity|].
  destruct (up req) as [m|st bd]; simpl; [reflexivity|].
  destruct (response_json deser_GetRoutesReponse st bd); reflexivity.
Qed.

(** Each route object of the Routes API deserialises field for field. *)
Lemma deser_route_json (d : num) (du pl : string) :
  deser_RoutesResponse (route_json d du pl) =
  inr {| distance_meters := f32_of_num d; duration := du;
         polyline := {| encoded_polyline := pl |} |}.
Proof. reflexivity. Qed.

Lemma deser_routes_map (rs : list (num * string * string)) :
  deser_seq deser_RoutesResponse
    (map (fun '(d, du, pl) => route_json d du pl) rs) =
  inr (map (fun '(d, du, pl) =>
              {| distance_meters := f32_of_num d; duration := du;
                 polyline := {| encoded_polyline := pl |} |}) rs).
Proof.
  induction rs as [|[[d du] pl] rs IH]; [reflexivity|]. cbn [map deser_seq].
  rewrite deser_route_json, IH. reflexivity.
Qed.

(** A place object with no priceLevel member deserialises to [None]. *)
Lemma deser_place_no_price (pkvs : list (string * json)) (pl : GooglePlace) :
  deser_GooglePlace (JObj pkvs) = inr pl ->
  assoc "priceLevel" pkvs = None ->
  price_level pl = None.
Proof.
  intros Hd Hn. unfold deser_GooglePlace, struct_fields in Hd.
  destruct (collect_fields _ pkvs []) as [e|raw] eqn:Ec; [discriminate|].
  pose proof (collect_fields_assoc _ _ _ _ Ec "priceLevel"
                ltac:(simpl; tauto)) as Ha.
  simpl in Ha. rewrite Hn in Ha.
  unfold field_optional in Hd. rewrite Ha in Hd.
  repeat match type of Hd with
         | context [match ?m with inl _ => _ | inr _ => _ end] =>
             destruct m; [discriminate|]
         end.
  injection Hd as <-. reflexivity.
Qed.

End Lemmas.

Section Claims.
Context {num f32 : Type} `{Float32 num f32}.
Local Abbreviation json := (json num).

(** C1 (amended).  An empty text query is not rejected: validation only
    refuses queries containing "undefined", so a [/places] request whose
    query string yields an empty [text_query] is forwarded upstream in
    exactly one call and is never answered 400 (given an API key that is a
    legal header value). *)
Theorem places_empty_query_forwarded (s : AppState)
    (query : list (string * string)) (request_body : string) (order : bool)
    (up : http_request -> upstream_outcome) :
  deser_GooglePlacesRequest (num:=num) query = inr {| text_query := "" |} ->
  valid_header_value (google_key s) = true ->
  length (sent (snd (places_route s query request_body order up w0))) = 1%nat /\
  status (fst (places_route s query request_body order up w0)) <> 400%Z.
Proof.
  intros Hq Hk. unfold places_route. rewrite Hq.
  assert (Hv : validate {| text_query := "" |} = true) by reflexivity.
  destruct (get_places_forward s _ order up _ Hv (places_request_ok (num:=num) s order "" Hk))
    as [Hs [Hst|Hie]].
  - rewrite Hs. split; [reflexivity|]. rewrite Hst. discriminate.
  - rewrite Hs, Hie. split; [reflexivity|]. discriminate.
Qed.

(** C3.  A text query equal to "undefined" or containing it is answered
    400 "Invalid request", and the handler leaves the world untouched: no
    upstream call, nothing printed. *)
Theorem places_sentinel_rejected (s : AppState) (p : GooglePlacesRequest)
    (order : bool) (up : http_request -> upstream_outcome) (w : world) :
  str_contains (text_query p) "undefined" = true ->
  get_places s p order up w =
  ({| status := 400; body := BodyText "Invalid request" |}, w).
Proof.
  intros Hc. unfold get_places, validate. rewrite Hc. reflexivity.
Qed.

(** C4 (code bug: one header too many).  For a text query without
    "undefined" and an API key that is a legal header value, the places
    handler sends exactly one upstream POST to the text-search URL; its JSON
    payload has exactly the two members textQuery = the query and
    maxResultCount = "10"; its headers are the field mask, the API key and
    the content type, but the content type [application/json] is carried
    twice: [RequestBuilder::json] sets it, and the explicit [Content-type]
    header added after it is appended, not replaced, so four header fields
    go out where the three of the curl command the handler follows were
    meant. *)
Theorem places_upstream_request (s : AppState) (p : GooglePlacesRequest)
    (order : bool) (up : http_request -> upstream_outcome) :
  validate p = true ->
  valid_header_value (google_key s) = true ->
  exists req,
    sent (snd (get_places (num:=num) s p order up w0)) = [req] /\
    method req = "POST" /\ url req = GOOGLE_URL /\
    (exists kvs, req_body req = Some (JObj kvs) /\ length kvs = 2%nat /\
       assoc "textQuery" kvs = Some (JStr (text_query p)) /\
       assoc "maxResultCount" kvs = Some (JStr "10")) /\
    headers req = [("content-type", ["application/json"; "application/json"]);
                   ("x-goog-fieldmask", [FIELD_MASK]);
                   ("x-goog-api-key", [google_key s])].
Proof.
  intros Hv Hk.
  pose proof (places_request_ok (num:=num) s order (text_query p) Hk) as Hreq.
  destruct (get_places_forward s p order up _ Hv Hreq) as [Hs _].
  eexists. split; [exact Hs|].
  split; [reflexivity|]. split; [reflexivity|]. split; [|reflexivity].
  eexists. split; [reflexivity|].
  unfold places_payload; destruct order; simpl; repeat split.
Qed.

(** C2 (amended).  The [/places] route reads its text query from the URL
    query string only: the request body is never read (two requests that
    differ only in their body are handled identically), so a request whose
    query string is empty is rejected with 400 before the handler runs,
    with no upstream call and nothing printed, whatever its body holds. *)
Theorem places_route_query_only (s : AppState)
    (query : list (string * string)) (b1 b2 : string) (order : bool)
    (up : http_request -> upstream_outcome) :
  places_route (num:=num) s query b1 order up =
  places_route s query b2 order up /\
  (forall (b : string) (w : world),
     exists msg, places_route s [] b order up w =
                 ({| status := 400; body := BodyText msg |}, w)).
Proof.
  split; [reflexivity|].
  intros b w. eexists. reflexivity.
Qed.

(** C5 (amended).  Feeding a routes request the Routes API answer
    [{"routes": [r1; ...; rN]}] yields a 200 whose body lists N records
    in the same order; each carries the duration string and the encoded
    polyline unchanged, and distanceMeters as deserialised into an [f32]
    ([v as f32]) and serialised back. *)
Theorem routes_round_trip (s : AppState) (b : GetRouteRequestBody)
    (up : http_request -> upstream_outcome) (st : Z)
    (rs : list (num * string * string)) req :
  routes_request s b = inr req ->
  up req = UpResponse st
    (inr (JObj [("routes", JArr (map (fun '(d, du, pl) => route_json d du pl) rs))])) ->
  fst (get_routes s b up w0) =
  {| status := 200;
     body := BodyJson
       (JObj [("routes",
               JArr (map (fun '(d, du, pl) =>
                            JObj [("distanceMeters", json_of_f32 (f32_of_num d));
                                  ("duration", JStr du);
                                  ("polyline", JObj [("encodedPolyline", JStr pl)])])
                         rs))]) |}.
Proof.
  intros Hreq Hup. unfold get_routes, bind, println, send.
  rewrite Hreq. simpl. rewrite Hup. simpl.
  unfold deser_GetRoutesReponse, field_required, deser_vec. simpl.
  rewrite deser_routes_map. simpl.
  unfold ser_GetRoutesReponse. simpl. rewrite map_map.
  apply (f_equal (fun l => {| status := 200;
                              body := BodyJson (JObj [("routes", JArr l)]) |})).
  apply map_ext. intros [[d du] pl]. reflexivity.
Qed.

(** C6.  The routes payload embeds the supplied origin and destination as
    [{"location": {"latLng": {latitude, longitude}}}] objects and the
    supplied departure time, with the fixed configuration: travel mode
    DRIVE, routing preference TRAFFIC_AWARE_OPTIMAL, alternative routes
    requested, tolls, highways and ferries not avoided, language en-US and
    metric units; every request the routes handler sends carries it. *)
Theorem routes_payload_config (s : AppState) (b : GetRouteRequestBody)
    (up : http_request -> upstream_outcome) :
  let pay := routes_payload (num:=num) b in
  let loc (l : Location) :=
    JObj [("location", JObj [("latLng",
      JObj [("latitude", json_of_f32 (latitude l));
            ("longitude", json_of_f32 (longitude l))])])] in
  json_get "origin" pay = Some (loc (origin_location b)) /\
  json_get "destination" pay = Some (loc (destination_location b)) /\
  json_get "departureTime" pay = Some (JStr (departure_time b)) /\
  json_get "travelMode" pay = Some (JStr "DRIVE") /\
  json_get "routingPreference" pay = Some (JStr "TRAFFIC_AWARE_OPTIMAL") /\
  json_get "computeAlternativeRoutes" pay = Some (JBool true) /\
  json_get "routeModifiers" pay =
    Some (JObj [("avoidFerries", JBool false); ("avoidHighways", JBool false);
                ("avoidTolls", JBool false)]) /\
  json_get "languageCode" pay = Some (JStr "en-US") /\
  json_get "units" pay = Some (JStr "METRIC") /\
  (forall req, In req (sent (snd (get_routes s b up w0))) ->
               req_body req = Some pay).
Proof.
  cbv zeta. repeat split.
  intros req Hin. rewrite get_routes_sent in Hin.
  destruct (routes_request s b) as [e|r] eqn:Hr; [contradiction|].
  destruct Hin as [<-|[]]. exact (routes_request_body s b r Hr).
Qed.

(** C7.  When the provider's answer is an object whose "places" member is
    absent or is a single [null], the places handler answers 200 with
    [{"places": null}]. *)
Theorem places_null_or_absent_ok (s : AppState) (p : GooglePlacesRequest)
    (order : bool) (up : http_request -> upstream_outcome) req (st : Z)
    (kvs : list (string * json)) :
  validate p = true ->
  places_request s order (text_query p) = inr req ->
  up req = UpResponse st (inr (JObj kvs)) ->
  members "places" kvs = [] \/ members "places" kvs = [("places", JNull)] ->
  fst (get_places s p order up w0) =
  {| status := 200; body := BodyJson (JObj [("places", JNull)]) |}.
Proof.
  intros Hv Hreq Hup Hm. unfold get_places. rewrite Hv. simpl negb. cbv iota.
  unfold bind, send. rewrite Hreq, Hup. simpl.
  unfold deser_GooglePlacesReponse, struct_fields, field_optional.
  destruct Hm as [Hm|Hm].
  - rewrite (collect_single_absent "places" kvs [] Hm). reflexivity.
  - rewrite (collect_single_one "places" JNull kvs [] eq_refl Hm). reflexivity.
Qed.

(** C8.  A network-level failure, or an answer that does not deserialise
    into the expected shape, makes either handler answer 500 with the fixed
    text "Something went wrong. Try again later" (nothing of the failure),
    print the underlying cause, and stop after the one request sent: no
    retry. *)
Theorem upstream_failure_generic_500 (s : AppState) :
  internal_error (num:=num) =
    {| status := 500; body := BodyText "Something went wrong. Try again later" |} /\
  (forall p order up req,
     validate p = true ->
     places_request s order (text_query p) = inr req ->
     (forall m, up req = UpNetworkError m ->
        get_places s p order up w0 =
        (internal_error,
         {| sent := [req];
            logs := ["Error sending request to Google Places API: " ++
                     show_err (ErrNetwork m)] |})) /\
     (forall st bd e, up req = UpResponse st bd ->
        response_json deser_GooglePlacesReponse st bd = inl e ->
        get_places s p order up w0 =
        (internal_error,
         {| sent := [req];
            logs := ["Error parsing response from Google Places API: " ++
                     show_err e] |}))) /\
  (forall b up req,
     routes_request s b = inr req ->
     (forall m, up req = UpNetworkError m ->
        get_routes s b up w0 =
        (internal_error,
         {| sent := [req];
            logs := ["body: " ++ debug_GetRouteRequestBody b;
                     "Error sending request to Google Routes API: " ++
                     show_err (ErrNetwork m)] |})) /\
     (forall st bd e, up req = UpResponse st bd ->
        response_json deser_GetRoutesReponse st bd = inl e ->
        get_routes s b up w0 =
        (internal_error,
         {| sent := [req];
            logs := ["body: " ++ debug_GetRouteRequestBody b;
                     "Error parsing response from Google Routes API: " ++
                     show_err e] |}))).
Proof.
  split; [reflexivity|]. split.
  - intros p order up req Hv Hreq. unfold get_places. rewrite Hv.
    simpl negb. cbv iota. unfold bind, send, println. rewrite Hreq.
    split.
    + intros m Hup. rewrite Hup. reflexivity.
    + intros st bd e Hup Hd. rewrite Hup. simpl. rewrite Hd. reflexivity.
  - intros b up req Hreq. unfold get_routes, bind, send, println.
    rewrite Hreq. split.
    + intros m Hup. simpl. rewrite Hup. reflexivity.
    + intros st bd e Hup Hd. simpl. rewrite Hup. simpl. rewrite Hd.
      reflexivity.
Qed.

(** C9.  When the provider's answer is accepted (status 200), a place
    object of its "places" array that has no priceLevel member comes out,
    at the same index, with priceLevel [null]: absent, not defaulted. *)
Theorem places_price_level_absent (s : AppState) (p : GooglePlacesRequest)
    (order : bool) (up : http_request -> upstream_outcome) req (st : Z)
    (kvs : list (string * json)) (js : list json) (i : nat)
    (pkvs : list (string * json)) :
  validate p = true ->
  places_request s order (text_query p) = inr req ->
  up req = UpResponse st (inr (JObj kvs)) ->
  assoc "places" kvs = Some (JArr js) ->
  nth_error js i = Some (JObj pkvs) ->
  assoc "priceLevel" pkvs = None ->
  status (fst (get_places s p order up w0)) = 200%Z ->
  exists outs o,
    body (fst (get_places s p order up w0)) = BodyJson (JObj [("places", JArr outs)]) /\
    nth_error outs i = Some o /\
    json_get "priceLevel" o = Some JNull.
Proof.
  intros Hv Hreq Hup Hpl Hn Hpr Hst.
  unfold get_places in *. rewrite Hv in *. simpl negb in *. cbv iota in *.
  unfold bind, send in *. rewrite Hreq, Hup in *. simpl in *.
  destruct (deser_GooglePlacesReponse (JObj kvs)) as [e|r] eqn:Ed;
    simpl in Hst; [discriminate|].
  unfold deser_GooglePlacesReponse, struct_fields in Ed.
  destruct (collect_fields ["places"] kvs []) as [e|raw] eqn:Ec;
    [discriminate|].
  pose proof (collect_fields_assoc _ _ _ _ Ec "places" (or_introl eq_refl))
    as Ha.
  simpl in Ha. rewrite Hpl in Ha.
  unfold field_optional in Ed. rewrite Ha in Ed. simpl in Ed.
  destruct (deser_seq deser_GooglePlace js) as [e|ps] eqn:Es; [discriminate|].
  injection Ed as <-.
  destruct (deser_seq_nth _ _ _ _ _ Es Hn) as [pl [Hp Hnth]].
  exists (map ser_GooglePlace ps), (ser_GooglePlace pl).
  split; [reflexivity|]. split.
  - rewrite nth_error_map, Hnth. reflexivity.
  - simpl. rewrite (deser_place_no_price pkvs pl Hp Hpr). reflexivity.
Qed.

(** C10.  Both handlers are deterministic.  Two runs of the places handler
    on the same text query, whatever order the payload's [HashMap] takes in
    each, give the same response and print the same lines as soon as the
    provider answers their requests alike; two runs of the routes handler
    whose provider answers the request alike are identical. *)
Theorem handlers_deterministic (s : AppState) :
  (forall p o1 o2 (up1 up2 : http_request -> upstream_outcome),
     (forall req1 req2,
        places_request s o1 (text_query p) = inr req1 ->
        places_request s o2 (text_query p) = inr req2 ->
        up1 req1 = up2 req2) ->
     fst (get_places (num:=num) s p o1 up1 w0) = fst (get_places s p o2 up2 w0) /\
     logs (snd (get_places s p o1 up1 w0)) = logs (snd (get_places s p o2 up2 w0))) /\
  (forall b (up1 up2 : http_request -> upstream_outcome),
     (forall req, routes_request s b = inr req -> up1 req = up2 req) ->
     get_routes s b up1 w0 = get_routes s b up2 w0).
Proof.
  split.
  - intros p o1 o2 up1 up2 Hup. unfold get_places.
    destruct (validate p); simpl negb; cbv iota; [|split; reflexivity].
    unfold bind, send, println.
    destruct (valid_header_value (google_key s)) eqn:Hk.
    + rewrite (places_request_ok s o1 _ Hk), (places_request_ok s o2 _ Hk).
      rewrite (Hup _ _ (places_request_ok s o1 _ Hk)
                     (places_request_ok s o2 _ Hk)).
      destruct (up2 _) as [m|st bd]; simpl; [split; reflexivity|].
      destruct (response_json deser_GooglePlacesReponse st bd);
        split; reflexivity.
    + rewrite (places_request_err s o1 _ Hk), (places_request_err s o2 _ Hk).
      split; reflexivity.
  - intros b up1 up2 Hup. unfold get_routes, bind, send, println.
    destruct (routes_request s b) as [e|req] eqn:Hr; [reflexivity|].
    rewrite (Hup req eq_refl). reflexivity.
Qed.

End Claims.

(** * Witnesses and counterexamples, on integer literals ([float32_int]) *)

(** C1: an empty query goes upstream. *)
Lemma places_empty_query_forwarded_witness :
  length (sent (snd (places_route (num:=Z) (f32:=Z) {| google_key := "k" |}
     [("text_query", "")] "" true
     (fun _ => UpResponse 200%Z (inr (JObj []))) w0))) = 1%nat /\
  status (fst (places_route (num:=Z) (f32:=Z) {| google_key := "k" |}
     [("text_query", "")] "" true
     (fun _ => UpResponse 200%Z (inr (JObj []))) w0)) <> 400%Z.
Proof.
  apply places_empty_query_forwarded; reflexivity.
Defined.

Lemma places_empty_query_counterexample :
  status (fst (places_route (num:=Z) (f32:=Z) {| google_key := "k" |}
     [("text_query", "")] "" true
     (fun _ => UpResponse 200%Z (inr (JObj []))) w0)) = 200%Z /\
  sent (snd (places_route (num:=Z) (f32:=Z) {| google_key := "k" |}
     [("text_query", "")] "" true
     (fun _ => UpResponse 200%Z (inr (JObj []))) w0)) <> [].
Proof.
  split; [reflexivity|]. vm_compute. discriminate.
Qed.

(** C2: the text query in the POST body, {"textQuery": "pizza"}, with an
    empty query string: rejected with 400, nothing sent. *)
Lemma places_body_query_counterexample :
  status (fst (places_route (num:=Z) (f32:=Z) {| google_key := "k" |} []
     ("{" ++ dquote ++ "textQuery" ++ dquote ++ ": " ++
      dquote ++ "pizza" ++ dquote ++ "}") true
     (fun _ => UpResponse 200%Z (inr (JObj []))) w0)) = 400%Z /\
  sent (snd (places_route (num:=Z) (f32:=Z) {| google_key := "k" |} []
     ("{" ++ dquote ++ "textQuery" ++ dquote ++ ": " ++
      dquote ++ "pizza" ++ dquote ++ "}") true
     (fun _ => UpResponse 200%Z (inr (JObj []))) w0)) = [].
Proof. split; reflexivity. Qed.

(** C3 *)
Lemma places_sentinel_rejected_witness :
  str_contains "my undefined place" "undefined" = true /\
  get_places (num:=Z) (f32:=Z) {| google_key := "k" |}
    {| text_query := "my undefined place" |} true
    (fun _ => UpResponse 200%Z (inr (JObj []))) w0 =
  ({| status := 400; body := BodyText "Invalid request" |}, w0).
Proof.
  split; [reflexivity|]. apply places_sentinel_rejected. reflexivity.
Defined.

(** C4: four header fields under three names. *)
Lemma places_upstream_request_witness :
  exists req,
    sent (snd (get_places (num:=Z) (f32:=Z) {| google_key := "k" |}
      {| text_query := "pizza" |} true
      (fun _ => UpResponse 200%Z (inr (JObj []))) w0)) = [req] /\
    method req = "POST" /\ url req = GOOGLE_URL /\
    (exists kvs, req_body req = Some (JObj kvs) /\ length kvs = 2%nat /\
       assoc "textQuery" kvs = Some (JStr "pizza") /\
       assoc "maxResultCount" kvs = Some (JStr "10")) /\
    headers req = [("content-type", ["application/json"; "application/json"]);
                   ("x-goog-fieldmask", [FIELD_MASK]);
                   ("x-goog-api-key", ["k"])].
Proof.
  apply (places_upstream_request (num:=Z) (f32:=Z) {| google_key := "k" |}
           {| text_query := "pizza" |}); reflexivity.
Defined.

Lemma places_header_count_counterexample :
  exists req,
    sent (snd (get_places (num:=Z) (f32:=Z) {| google_key := "k" |}
      {| text_query := "pizza" |} true
      (fun _ => UpResponse 200%Z (inr (JObj []))) w0)) = [req] /\
    length (headers req) = 3%nat /\ hm_len (headers req) = 4%nat.
Proof.
  eexists. split; [reflexivity|]. split; reflexivity.
Qed.

(** C5: 16777217 m is not an [f32]; it comes back as 16777216. *)
Lemma routes_round_trip_witness :
  fst (get_routes (num:=Z) (f32:=Z) {| google_key := "k" |}
         {| origin_location := {| latitude := 1%Z; longitude := 2%Z |};
            destination_location := {| latitude := 3%Z; longitude := 4%Z |};
            departure_time := "2023-10-15T15:01:23Z" |}
         (fun _ => UpResponse 200%Z
            (inr (JObj [("routes", JArr [route_json 1200%Z "95s" "abc";
                                         route_json 1500%Z "120s" "def"])]))) w0) =
  {| status := 200;
     body := BodyJson
       (JObj [("routes",
               JArr [JObj [("distanceMeters", JNum 1200%Z);
                           ("duration", JStr "95s");
                           ("polyline", JObj [("encodedPolyline", JStr "abc")])];
                     JObj [("distanceMeters", JNum 1500%Z);
                           ("duration", JStr "120s");
                           ("polyline", JObj [("encodedPolyline", JStr "def")])]])]) |}.
Proof.
  etransitivity;
    [eapply (routes_round_trip _ _ _ _
               [(1200%Z, "95s", "abc"); (1500%Z, "120s", "def")]);
     reflexivity|].
  reflexivity.
Defined.

Lemma routes_distance_counterexample :
  exists o,
    body (fst (get_routes (num:=Z) (f32:=Z) {| google_key := "k" |}
         {| origin_location := {| latitude := 1%Z; longitude := 2%Z |};
            destination_location := {| latitude := 3%Z; longitude := 4%Z |};
            departure_time := "2023-10-15T15:01:23Z" |}
         (fun _ => UpResponse 200%Z
            (inr (JObj [("routes", JArr [route_json 16777217%Z "95s" "abc"])])))
         w0)) = BodyJson (JObj [("routes", JArr [o])]) /\
    json_get "distanceMeters" o = Some (JNum 16777216%Z) /\
    json_get "distanceMeters" (route_json (num:=Z) 16777217%Z "95s" "abc") =
      Some (JNum 16777217%Z).
Proof.
  eexists. split; [reflexivity|]. split; reflexivity.
Qed.

(** C7: "places" absent. *)
Lemma places_null_or_absent_ok_witness :
  fst (get_places (num:=Z) (f32:=Z) {| google_key := "k" |}
         {| text_query := "pizza" |} false
         (fun _ => UpResponse 200%Z (inr (JObj [("nextPageToken", JStr "x")])))
         w0) =
  {| status := 200; body := BodyJson (JObj [("places", JNull)]) |}.
Proof.
  eapply (places_null_or_absent_ok _ _ _ _ _ 200%Z [("nextPageToken", JStr "x")]);
    [reflexivity|reflexivity|reflexivity|left; reflexivity].
Defined.

(** C8: connection refused on /places, a non-JSON body on /routes. *)
Lemma upstream_failure_generic_500_witness :
  fst (get_places (num:=Z) (f32:=Z) {| google_key := "k" |}
         {| text_query := "pizza" |} true
         (fun _ => UpNetworkError "connection refused") w0) = internal_error /\
  fst (get_routes (num:=Z) (f32:=Z) {| google_key := "k" |}
         {| origin_location := {| latitude := 1%Z; longitude := 2%Z |};
            destination_location := {| latitude := 3%Z; longitude := 4%Z |};
            departure_time := "t" |}
         (fun _ => UpResponse 502%Z (inl "expected value")) w0) = internal_error.
Proof.
  destruct (upstream_failure_generic_500 (num:=Z) (f32:=Z)
              {| google_key := "k" |}) as [_ [Hp Hr]].
  split.
  - edestruct (Hp {| text_query := "pizza" |} true
                  (fun _ => UpNetworkError "connection refused"))
      as [Hn _]; [reflexivity|reflexivity|].
    rewrite (Hn "connection refused" eq_refl). reflexivity.
  - edestruct Hr as [_ Hd]; [reflexivity|].
    rewrite (Hd 502%Z (inl "expected value") (ErrDecode "expected value")
               eq_refl eq_refl).
    reflexivity.
Defined.

(** C9: one place without priceLevel. *)
Lemma places_price_level_absent_witness :
  exists outs o,
    body (fst (get_places (num:=Z) (f32:=Z) {| google_key := "k" |}
      {| text_query := "pizza" |} true
      (fun _ => UpResponse 200%Z (inr (JObj [("places", JArr
         [JObj [("id", JStr "p1"); ("formattedAddress", JStr "1 Main St");
                ("displayName", JObj [("text", JStr "Pizzeria")]);
                ("location", JObj [("latitude", JNum 1%Z);
                                   ("longitude", JNum 2%Z)])]])]))) w0)) =
      BodyJson (JObj [("places", JArr outs)]) /\
    nth_error outs 0 = Some o /\
    json_get "priceLevel" o = Some JNull.
Proof.
  eapply (places_price_level_absent _ _ _ _ _ 200%Z _ _ 0);
    reflexivity.
Defined.

(** C10: the two [HashMap] orders, one provider answer. *)
Lemma handlers_deterministic_witness :
  fst (get_places (num:=Z) (f32:=Z) {| google_key := "k" |}
         {| text_query := "pizza" |} true
         (fun _ => UpResponse 200%Z (inr (JObj [("places", JNull)]))) w0) =
  fst (get_places (num:=Z) (f32:=Z) {| google_key := "k" |}
         {| text_query := "pizza" |} false
         (fun _ => UpResponse 200%Z (inr (JObj [("places", JNull)]))) w0) /\
  logs (snd (get_places (num:=Z) (f32:=Z) {| google_key := "k" |}
         {| text_query := "pizza" |} true
         (fun _ => UpResponse 200%Z (inr (JObj [("places", JNull)]))) w0)) =
  logs (snd (get_places (num:=Z) (f32:=Z) {| google_key := "k" |}
         {| text_query := "pizza" |} false
         (fun _ => UpResponse 200%Z (inr (JObj [("places", JNull)]))) w0)).
Proof.
  apply (proj1 (handlers_deterministic (num:=Z) (f32:=Z)
                  {| google_key := "k" |})).
  intros. reflexivity.
Defined.

(** * Further properties of the handlers and the router *)

Section MoreLemmas.
Context {num f32 : Type} `{Float32 num f32}.
Local Abbreviation json := (json num).

(** A successful places parse of an object took its "places" member. *)
Lemma deser_places_member (kvs : list (string * json)) (js : list json) r :
  assoc "places" kvs = Some (JArr js) ->
  deser_GooglePlacesReponse (JObj kvs) = inr r ->
  exists ps, deser_seq deser_GooglePlace js = inr ps /\ places r = Some ps.
Proof.
  intros Hpl Ed. unfold deser_GooglePlacesReponse, struct_fields in Ed.
  destruct (collect_fields ["places"] kvs []) as [e|raw] eqn:Ec;
    [discriminate|].
  pose proof (collect_fields_assoc _ _ _ _ Ec "places" (or_introl eq_refl))
    as Ha.
  simpl in Ha. rewrite Hpl in Ha.
  unfold field_optional in Ed. rewrite Ha in Ed. simpl in Ed.
  destruct (deser_seq deser_GooglePlace js) as [e|ps] eqn:Es; [discriminate|].
  injection Ed as <-. exists ps. split; reflexivity.
Qed.

Lemma deser_routes_member (kvs : list (string * json)) (js : list json) r :
  assoc "routes" kvs = Some (JArr js) ->
  deser_GetRoutesReponse (JObj kvs) = inr r ->
  deser_seq deser_RoutesResponse js = inr (routes r).
Proof.
  intros Hrs Ed. unfold deser_GetRoutesReponse, struct_fields in Ed.
  destruct (collect_fields ["routes"] kvs []) as [e|raw] eqn:Ec;
    [discriminate|].
  pose proof (collect_fields_assoc _ _ _ _ Ec "routes" (or_introl eq_refl))
    as Ha.
  simpl in Ha. rewrite Hrs in Ha.
  unfold field_required in Ed. rewrite Ha in Ed. simpl in Ed.
  destruct (deser_seq deser_RoutesResponse js) as [e|rs] eqn:Es;
    [discriminate|].
  injection Ed as <-. reflexivity.
Qed.

(** What [get_places] does once the request is built and answered. *)
Lemma get_places_answered (s : AppState) (p : GooglePlacesRequest)
    (order : bool) (up : http_request -> upstream_outcome) req st bd :
  validate p = true ->
  places_request s order (text_query p) = inr req ->
  up req = UpResponse st bd ->
  fst (get_places s p order up w0) =
  match response_json deser_GooglePlacesReponse st bd with
  | inr r => {| status := 200; body := BodyJson (ser_GooglePlacesReponse r) |}
  | inl _ => internal_error
  end.
Proof.
  intros Hv Hreq Hup. unfold get_places. rewrite Hv. simpl negb. cbv iota.
  unfold bind, send, println. rewrite Hreq, Hup. simpl.
  destruct (response_json deser_GooglePlacesReponse st bd); reflexivity.
Qed.

Lemma get_routes_answered (s : AppState) (b : GetRouteRequestBody)
    (up : http_request -> upstream_outcome) req st bd :
  routes_request s b = inr req ->
  up req = UpResponse st bd ->
  fst (get_routes s b up w0) =
  match response_json deser_GetRoutesReponse st bd with
  | inr r => {| status := 200; body := BodyJson (ser_GetRoutesReponse r) |}
  | inl _ => internal_error
  end.
Proof.
  intros Hreq Hup. unfold get_routes, bind, send, println.
  rewrite Hreq. simpl. rewrite Hup. simpl.
  destruct (response_json deser_GetRoutesReponse st bd); reflexivity.
Qed.

Lemma get_places_200 (s : AppState) (p : GooglePlacesRequest) (order : bool)
    (up : http_request -> upstream_outcome) :
  status (fst (get_places (num:=num) s p order up w0)) = 200%Z ->
  exists r, body (fst (get_places s p order up w0)) =
            BodyJson (ser_GooglePlacesReponse r).
Proof.
  unfold get_places. destruct (validate p); simpl negb; cbv iota;
    [|simpl; discriminate].
  unfold bind, send, println.
  destruct (places_request s order (text_query p)) as [e|req];
    [simpl; discriminate|].
  destruct (up req) as [m|st bd]; [simpl; discriminate|].
  simpl. destruct (response_json deser_GooglePlacesReponse st bd) as [e|r];
    simpl; [discriminate|].
  intros _. exists r. reflexivity.
Qed.

Lemma deser_ser_place (p : GooglePlace) :
  Forall f32_round_trips (place_f32s p) ->
  deser_GooglePlace (ser_GooglePlace p) = inr p.
Proof.
  destruct p as [i fa pl [t lc] [la lo]]. unfold place_f32s. simpl.
  intros Hf. inversion Hf as [|? ? Hla Hf']. inversion Hf' as [|? ? Hlo _].
  unfold f32_round_trips in Hla, Hlo.
  destruct (json_of_f32 la) eqn:Ela; try contradiction.
  destruct (json_of_f32 lo) eqn:Elo; try contradiction.
  unfold ser_GooglePlace, ser_Location. simpl. rewrite Ela, Elo.
  destruct pl, lc; cbn; rewrite Hla, Hlo; reflexivity.
Qed.

Lemma deser_ser_route (r : RoutesResponse) :
  f32_round_trips (distance_meters r) ->
  deser_RoutesResponse (ser_RoutesResponse r) = inr r.
Proof.
  destruct r as [d du [pl]]. simpl. unfold f32_round_trips.
  intros Hd. destruct (json_of_f32 d) eqn:Ed; try contradiction.
  unfold ser_RoutesResponse. simpl. rewrite Ed. cbn. rewrite Hd.
  reflexivity.
Qed.

Lemma deser_seq_map_ser {A : Type} (d : json -> result A) (ser : A -> json)
    (P : A -> Prop) :
  (forall a, P a -> d (ser a) = inr a) ->
  forall l, Forall P l -> deser_seq d (map ser l) = inr l.
Proof.
  intros Hd l Hl. induction Hl as [|a l Ha Hl IH]; [reflexivity|].
  simpl. rewrite (Hd a Ha), IH. reflexivity.
Qed.

(** Only the known keys of an object matter to a struct visit. *)
Lemma collect_fields_filter (fields : list string) :
  forall (kvs seen : list (string * json)),
  collect_fields fields kvs seen =
  collect_fields fields
    (filter (fun kv => existsb (String.eqb (fst kv)) fields) kvs) seen.
Proof.
  induction kvs as [|[k v] rest IH]; intros seen; [reflexivity|].
  simpl. destruct (existsb (String.eqb k) fields) eqn:E.
  - simpl. rewrite E. destruct (assoc k seen); [reflexivity|]. apply IH.
  - apply IH.
Qed.

Lemma query_pairs_filter (query : list (string * string)) :
  filter (fun kv => existsb (String.eqb (fst kv)) ["text_query"])
    (map (fun kv => (fst kv, @JStr num (snd kv))) query) =
  map (fun kv => (fst kv, JStr (snd kv))) (members "text_query" query).
Proof.
  induction query as [|[k v] rest IH]; [reflexivity|].
  unfold members in *. simpl in *. rewrite orb_false_r.
  destruct (String.eqb k "text_query"); simpl; [f_equal|]; exact IH.
Qed.

Lemma members_idem {A : Type} (k : string) (l : list (string * A)) :
  members k (members k l) = members k l.
Proof.
  unfold members. induction l as [|[k' v] rest IH]; [reflexivity|].
  simpl. destruct (String.eqb k' k) eqn:E; simpl; [rewrite E, IH|]; 
    [reflexivity|exact IH].
Qed.

Lemma members_key {A : Type} (k : string) (l : list (string * A)) k' v :
  In (k', v) (members k l) -> k' = k.
Proof.
  unfold members. intros Hin. apply filter_In in Hin as [_ Hk].
  apply String.eqb_eq. exact Hk.
Qed.

Lemma deser_query_members (query : list (string * string)) :
  deser_GooglePlacesRequest (num:=num) query =
  deser_GooglePlacesRequest (num:=num) (members "text_query" query).
Proof.
  unfold deser_GooglePlacesRequest, struct_fields.
  rewrite (collect_fields_filter _ (map _ query)),
          (collect_fields_filter _ (map _ (members "text_query" query))).
  rewrite !query_pairs_filter, members_idem. reflexivity.
Qed.

Lemma routes_request_err (s : AppState) (b : GetRouteRequestBody) :
  valid_header_value (google_key s) = false ->
  routes_request (num:=num) s b =
  inl (ErrBuilder "failed to parse header value").
Proof.
  intros Hk. unfold routes_request, rb_header, rb_json, rb_post.
  cbn -[valid_header_value routes_payload]. rewrite Hk. reflexivity.
Qed.

Lemma starts_with_app (n : string) :
  forall s t, starts_with s n = true -> starts_with (s ++ t) n = true.
Proof.
  induction n as [|c n IH]; intros s t Hs.
  - destruct s, t; reflexivity.
  - destruct s as [|d s]; simpl in Hs; [discriminate|].
    apply andb_prop in Hs as [Hc Hs]. simpl. rewrite Hc. simpl.
    apply IH. exact Hs.
Qed.

Lemma str_contains_app_r (n t : string) :
  forall s, str_contains s n = true -> str_contains (s ++ t) n = true.
Proof.
  induction s as [|c s IH]; intros Hs.
  - simpl in Hs. destruct n; [|discriminate].
    destruct t; reflexivity.
  - simpl in Hs |- *. apply orb_true_iff in Hs as [Hs|Hs].
    + pose proof (starts_with_app n (String c s) t Hs) as Hw.
      simpl in Hw. rewrite Hw. reflexivity.
    + rewrite (IH Hs). apply orb_true_r.
Qed.

Lemma str_contains_app_l (n s : string) :
  forall a, str_contains s n = true -> str_contains (a ++ s) n = true.
Proof.
  induction a as [|c a IH]; intros Hs; [exact Hs|].
  simpl. rewrite (IH Hs). apply orb_true_r.
Qed.









End MoreLemmas.

Section Extras.
Context {num f32 : Type} `{Float32 num f32}.
Local Abbreviation json := (json num).

(** The provider's HTTP status is never looked at: two answers with the same
    body and different statuses (a 403 or a 500 from the provider included)
    give the same response, logs and requests, for both handlers. *)
Theorem upstream_status_ignored (s : AppState) :
  (forall p order (up1 up2 : http_request -> upstream_outcome) req st1 st2 bd,
     validate p = true ->
     places_request s order (text_query p) = inr req ->
     up1 req = UpResponse st1 bd -> up2 req = UpResponse st2 bd ->
     get_places (num:=num) s p order up1 w0 = get_places s p order up2 w0) /\
  (forall b (up1 up2 : http_request -> upstream_outcome) req st1 st2 bd,
     routes_request s b = inr req ->
     up1 req = UpResponse st1 bd -> up2 req = UpResponse st2 bd ->
     get_routes s b up1 w0 = get_routes s b up2 w0).
Proof.
  split.
  - intros p order up1 up2 req st1 st2 bd Hv Hreq H1 H2.
    unfold get_places. rewrite Hv. simpl negb. cbv iota.
    unfold bind, send, println. rewrite Hreq, H1, H2. reflexivity.
  - intros b up1 up2 req st1 st2 bd Hreq H1 H2.
    unfold get_routes, bind, send, println. rewrite Hreq. simpl.
    rewrite H1, H2. reflexivity.
Qed.

(** A Routes API answer that is an object without a "routes" member (an
    empty object [{}], say) is a 500 after exactly one upstream request;
    the handler prints two lines, the request body and then the decode
    error, which starts with serde's missing-field message wrapped by
    reqwest (the position serde_json adds after it is not modelled). *)
Theorem routes_missing_member_500 (s : AppState) (b : GetRouteRequestBody)
    (up : http_request -> upstream_outcome) req (st : Z)
    (kvs : list (string * json)) :
  routes_request s b = inr req ->
  up req = UpResponse st (inr (JObj kvs)) ->
  members "routes" kvs = [] ->
  exists l1 l2,
    get_routes s b up w0 =
    (internal_error, {| sent := [req]; logs := [l1; l2] |}) /\
    starts_with l1 "body: " = true /\
    starts_with l2
      ("Error parsing response from Google Routes API: " ++
       "error decoding response body: missing field " ++
       backtick ++ "routes" ++ backtick) = true.
Proof.
  intros Hreq Hup Hm. unfold get_routes, bind, send, println.
  rewrite Hreq. simpl. rewrite Hup. simpl.
  unfold deser_GetRoutesReponse, struct_fields.
  rewrite (collect_single_absent "routes" kvs [] Hm).
  eexists _, _. split; [reflexivity|]. split; reflexivity.
Qed.

(** No partial results on /places: one element of the "places" array that
    does not deserialise makes the whole answer the generic 500. *)
Theorem places_one_bad_place_500 (s : AppState) (p : GooglePlacesRequest)
    (order : bool) (up : http_request -> upstream_outcome) req (st : Z)
    (kvs : list (string * json)) (js : list json) (i : nat) (j : json) e :
  validate p = true ->
  places_request s order (text_query p) = inr req ->
  up req = UpResponse st (inr (JObj kvs)) ->
  assoc "places" kvs = Some (JArr js) ->
  nth_error js i = Some j ->
  deser_GooglePlace j = inl e ->
  fst (get_places s p order up w0) = internal_error.
Proof.
  intros Hv Hreq Hup Hpl Hn Hbad.
  rewrite (get_places_answered s p order up req st _ Hv Hreq Hup). simpl.
  destruct (deser_GooglePlacesReponse (JObj kvs)) as [e'|r] eqn:Ed;
    [reflexivity|].
  destruct (deser_places_member kvs js r Hpl Ed) as [ps [Es _]].
  destruct (deser_seq_nth _ _ _ _ _ Es Hn) as [a [Ha _]].
  congruence.
Qed.

(** No partial results on /routes either: one route object that does not
    deserialise (a missing distanceMeters, say) makes the answer a 500. *)
Theorem routes_one_bad_route_500 (s : AppState) (b : GetRouteRequestBody)
    (up : http_request -> upstream_outcome) req (st : Z)
    (kvs : list (string * json)) (js : list json) (i : nat) (j : json) e :
  routes_request s b = inr req ->
  up req = UpResponse st (inr (JObj kvs)) ->
  assoc "routes" kvs = Some (JArr js) ->
  nth_error js i = Some j ->
  deser_RoutesResponse j = inl e ->
  fst (get_routes s b up w0) = internal_error.
Proof.
  intros Hreq Hup Hrs Hn Hbad.
  rewrite (get_routes_answered s b up req st _ Hreq Hup). simpl.
  destruct (deser_GetRoutesReponse (JObj kvs)) as [e'|r] eqn:Ed;
    [reflexivity|].
  pose proof (deser_routes_member kvs js r Hrs Ed) as Es.
  destruct (deser_seq_nth _ _ _ _ _ Es Hn) as [a [Ha _]].
  congruence.
Qed.

(** Whatever the provider adds, an accepted /places answer has the client
    shape: [{"places": null}] or [{"places": [...]}] where every place is an
    object with exactly the members id, formattedAddress, priceLevel,
    displayName and location, in that order; unknown provider fields are
    dropped. *)
Theorem places_output_shape (s : AppState) (p : GooglePlacesRequest)
    (order : bool) (up : http_request -> upstream_outcome) :
  status (fst (get_places (num:=num) s p order up w0)) = 200%Z ->
  exists v,
    body (fst (get_places s p order up w0)) = BodyJson (JObj [("places", v)]) /\
    (v = JNull \/
     exists outs, v = JArr outs /\
       Forall (fun o => exists kvs, o = JObj kvs /\
                 map fst kvs = ["id"; "formattedAddress"; "priceLevel";
                                "displayName"; "location"]) outs).
Proof.
  intros Hst. destruct (get_places_200 s p order up Hst) as [r Hr].
  rewrite Hr. destruct r as [[ps|]]; eexists; (split; [reflexivity|]).
  - right. eexists. split; [reflexivity|].
    apply Forall_forall. intros o Hin. apply in_map_iff in Hin as [pl [<- _]].
    eexists. split; reflexivity.
  - left. reflexivity.
Qed.

(** Round trip of the places response type: the JSON the handler writes for
    a [GooglePlacesReponse] reads back as the same value, whenever its
    coordinates survive the [f32] to JSON to [f32] trip. *)
Theorem places_response_round_trip (r : GooglePlacesReponse) :
  Forall (fun p => Forall f32_round_trips (place_f32s p))
         (match places r with Some ps => ps | None => [] end) ->
  deser_GooglePlacesReponse (num:=num) (ser_GooglePlacesReponse r) = inr r.
Proof.
  destruct r as [[ps|]]; simpl; intros Hf; [|reflexivity].
  unfold deser_GooglePlacesReponse, ser_GooglePlacesReponse. simpl.
  unfold field_optional. simpl.
  rewrite (deser_seq_map_ser _ _ _ deser_ser_place ps Hf). reflexivity.
Qed.

(** Round trip of the routes response type, for distances that survive the
    [f32] to JSON to [f32] trip. *)
Theorem routes_response_round_trip (r : GetRoutesReponse) :
  Forall (fun x => f32_round_trips (distance_meters x)) (routes r) ->
  deser_GetRoutesReponse (num:=num) (ser_GetRoutesReponse r) = inr r.
Proof.
  destruct r as [rs]. simpl. intros Hf.
  unfold deser_GetRoutesReponse, ser_GetRoutesReponse. simpl.
  unfold field_required. simpl.
  rewrite (deser_seq_map_ser _ _ _ deser_ser_route rs Hf). reflexivity.
Qed.

(** The /places route looks only at the query pairs named text_query: any
    other query parameter, in any position, changes nothing. *)
Theorem places_route_other_params_ignored (s : AppState)
    (query : list (string * string)) (b : string) (order : bool)
    (up : http_request -> upstream_outcome) :
  places_route (num:=num) s query b order up =
  places_route s (members "text_query" query) b order up.
Proof.
  unfold places_route. rewrite deser_query_members. reflexivity.
Qed.

(** The /places route needs exactly one text_query pair: with none, or with
    several (a duplicate field), it answers 400 before the handler runs and
    sends and prints nothing; with exactly one, its value is the handler's
    text query. *)
Theorem places_route_text_query_pairs (s : AppState) :
  (forall query b order (up : http_request -> upstream_outcome) w,
     (members "text_query" query = [] \/
      (2 <= length (members "text_query" query))%nat) ->
     exists msg, places_route (num:=num) s query b order up w =
                 ({| status := 400; body := BodyText msg |}, w)) /\
  (forall query b order (up : http_request -> upstream_outcome) v,
     members "text_query" query = [("text_query", v)] ->
     places_route (num:=num) s query b order up =
     get_places s {| text_query := v |} order up).
Proof.
  split.
  - intros query b order up w Hm.
    unfold places_route. rewrite deser_query_members.
    destruct Hm as [Hm|Hm].
    + rewrite Hm. eexists. reflexivity.
    + assert (Hk : forall k' v, In (k', v) (members "text_query" query) ->
                   k' = "text_query") by (intros; eapply members_key; eauto).
      destruct (members "text_query" query) as [|[k1 v1] [|[k2 v2] rest]];
        simpl in Hm; try lia.
      rewrite (Hk k1 v1 (or_introl eq_refl)),
              (Hk k2 v2 (or_intror (or_introl eq_refl))).
      eexists. reflexivity.
  - intros query b order up v Hm.
    unfold places_route. rewrite deser_query_members, Hm. reflexivity.
Qed.

(** An API key that is not a legal header value (a trailing newline or
    carriage return from the .env file, say) makes every valid /places call
    and every /routes call a 500 without any upstream request: the request
    builder fails before sending. *)
Theorem invalid_api_key_no_call (s : AppState) :
  valid_header_value (google_key s) = false ->
  (forall p order (up : http_request -> upstream_outcome),
     validate p = true ->
     get_places (num:=num) s p order up w0 =
     (internal_error,
      {| sent := [];
         logs := ["Error sending request to Google Places API: " ++
                  "builder error: failed to parse header value"] |})) /\
  (forall b (up : http_request -> upstream_outcome),
     get_routes (num:=num) s b up w0 =
     (internal_error,
      {| sent := [];
         logs := ["body: " ++ debug_GetRouteRequestBody b;
                  "Error sending request to Google Routes API: " ++
                  "builder error: failed to parse header value"] |})).
Proof.
  intros Hk. split.
  - intros p order up Hv. unfold get_places. rewrite Hv. simpl negb.
    cbv iota. unfold bind, send, println.
    rewrite (places_request_err s order _ Hk). reflexivity.
  - intros b up. unfold get_routes, bind, send, println.
    rewrite (routes_request_err s b Hk). reflexivity.
Qed.

(** With a usable key, the routes handler sends exactly one POST to the
    compute-routes URL, carrying the routes field mask and the API key, the
    content type application/json twice (from [json] and from the explicit
    header). *)
Theorem routes_upstream_request (s : AppState) (b : GetRouteRequestBody)
    (up : http_request -> upstream_outcome) :
  valid_header_value (google_key s) = true ->
  exists req,
    sent (snd (get_routes (num:=num) s b up w0)) = [req] /\
    method req = "POST" /\ url req = GOOGLE_ROUTES_URL /\
    headers req = [("content-type", ["application/json"; "application/json"]);
                   ("x-goog-fieldmask", [ROUTE_FIELD_MASK]);
                   ("x-goog-api-key", [google_key s])].
Proof.
  intros Hk. rewrite get_routes_sent, (routes_request_ok s b Hk).
  eexists. repeat split.
Qed.




(** The sentinel rule composes: a text query that is refused stays refused
    inside any longer query (any text before and after it). *)
Theorem validate_refuses_extensions (a q b : string) :
  validate {| text_query := q |} = false ->
  validate {| text_query := a ++ q ++ b |} = false.
Proof.
  unfold validate. simpl. intros Hq.
  apply negb_false_iff in Hq. apply negb_false_iff.
  apply str_contains_app_l, str_contains_app_r. exact Hq.
Qed.


End Extras.

(** * Witnesses of the further properties ([float32_int]) *)

(** A provider 403 and a provider 200 with the same body. *)
Lemma upstream_status_ignored_witness :
  get_places (num:=Z) (f32:=Z) {| google_key := "k" |}
    {| text_query := "pizza" |} true
    (fun _ => UpResponse 403%Z (inr (JObj [("error", JObj [])]))) w0 =
  get_places (num:=Z) (f32:=Z) {| google_key := "k" |}
    {| text_query := "pizza" |} true
    (fun _ => UpResponse 200%Z (inr (JObj [("error", JObj [])]))) w0.
Proof.
  destruct (upstream_status_ignored (num:=Z) (f32:=Z) {| google_key := "k" |})
    as [Hp _].
  eapply Hp; reflexivity.
Defined.

Lemma routes_missing_member_500_witness :
  exists req l1 l2,
    get_routes (num:=Z) (f32:=Z) {| google_key := "k" |}
      {| origin_location := {| latitude := 1%Z; longitude := 2%Z |};
         destination_location := {| latitude := 3%Z; longitude := 4%Z |};
         departure_time := "t" |}
      (fun _ => UpResponse 200%Z (inr (JObj []))) w0 =
    (internal_error,
     {| sent := [req]; logs := [l1; l2] |}) /\
    starts_with l1 "body: " = true /\
    starts_with l2
      ("Error parsing response from Google Routes API: " ++
       "error decoding response body: missing field " ++
       backtick ++ "routes" ++ backtick) = true.
Proof.
  eexists. eapply routes_missing_member_500; reflexivity.
Defined.

(** A place without its id. *)
Lemma places_one_bad_place_500_witness :
  fst (get_places (num:=Z) (f32:=Z) {| google_key := "k" |}
         {| text_query := "pizza" |} true
         (fun _ => UpResponse 200%Z (inr (JObj [("places", JArr
            [JObj [("formattedAddress", JStr "1 Main St");
                   ("displayName", JObj [("text", JStr "Pizzeria")]);
                   ("location", JObj [("latitude", JNum 1%Z);
                                      ("longitude", JNum 2%Z)])]])]))) w0) =
  internal_error.
Proof.
  eapply (places_one_bad_place_500 _ _ _ _ _ 200%Z _ _ 0);
    reflexivity.
Defined.

(** A route without its distance. *)
Lemma routes_one_bad_route_500_witness :
  fst (get_routes (num:=Z) (f32:=Z) {| google_key := "k" |}
         {| origin_location := {| latitude := 1%Z; longitude := 2%Z |};
            destination_location := {| latitude := 3%Z; longitude := 4%Z |};
            departure_time := "t" |}
         (fun _ => UpResponse 200%Z (inr (JObj [("routes", JArr
            [route_json 10%Z "5s" "a";
             JObj [("duration", JStr "7s");
                   ("polyline", JObj [("encodedPolyline", JStr "b")])]])])))
         w0) = internal_error.
Proof.
  eapply (routes_one_bad_route_500 _ _ _ _ 200%Z _ _ 1); reflexivity.
Defined.

(** Extra provider fields (rating) are dropped. *)
Lemma places_output_shape_witness :
  exists v,
    body (fst (get_places (num:=Z) (f32:=Z) {| google_key := "k" |}
      {| text_query := "pizza" |} true
      (fun _ => UpResponse 200%Z (inr (JObj [("places", JArr
         [JObj [("id", JStr "p1"); ("rating", JNum 4%Z);
                ("formattedAddress", JStr "1 Main St");
                ("displayName", JObj [("text", JStr "Pizzeria")]);
                ("location", JObj [("latitude", JNum 1%Z);
                                   ("longitude", JNum 2%Z)])]])]))) w0)) =
      BodyJson (JObj [("places", v)]) /\
    (v = JNull \/
     exists outs, v = JArr outs /\
       Forall (fun o => exists kvs, o = JObj kvs /\
                 map fst kvs = ["id"; "formattedAddress"; "priceLevel";
                                "displayName"; "location"]) outs).
Proof.
  apply places_output_shape. reflexivity.
Defined.

Lemma places_response_round_trip_witness :
  deser_GooglePlacesReponse (num:=Z) (f32:=Z)
    (ser_GooglePlacesReponse
       {| places := Some [{| id := "p1"; formatted_address := "1 Main St";
                             price_level := Some "PRICE_LEVEL_MODERATE";
                             display_name := {| text := "Pizzeria";
                                                language_code := None |};
                             location := {| latitude := 1%Z;
                                            longitude := 2%Z |} |}] |}) =
  inr {| places := Some [{| id := "p1"; formatted_address := "1 Main St";
                            price_level := Some "PRICE_LEVEL_MODERATE";
                            display_name := {| text := "Pizzeria";
                                               language_code := None |};
                            location := {| latitude := 1%Z;
                                           longitude := 2%Z |} |}] |}.
Proof.
  apply places_response_round_trip.
  repeat constructor.
Defined.

Lemma routes_response_round_trip_witness :
  deser_GetRoutesReponse (num:=Z) (f32:=Z)
    (ser_GetRoutesReponse
       {| routes := [{| distance_meters := 1200%Z; duration := "95s";
                        polyline := {| encoded_polyline := "abc" |} |}] |}) =
  inr {| routes := [{| distance_meters := 1200%Z; duration := "95s";
                       polyline := {| encoded_polyline := "abc" |} |}] |}.
Proof.
  apply routes_response_round_trip.
  repeat constructor.
Defined.

(** Two text_query pairs. *)
Lemma places_route_text_query_pairs_witness :
  exists msg,
    places_route (num:=Z) (f32:=Z) {| google_key := "k" |}
      [("text_query", "pizza"); ("text_query", "sushi")] "" true
      (fun _ => UpResponse 200%Z (inr (JObj []))) w0 =
    ({| status := 400; body := BodyText msg |}, w0).
Proof.
  apply (proj1 (places_route_text_query_pairs (num:=Z) (f32:=Z)
                  {| google_key := "k" |})).
  right. simpl. lia.
Defined.

(** A key read with its line feed. *)
Lemma invalid_api_key_no_call_witness :
  get_places (num:=Z) (f32:=Z)
    {| google_key := "k" ++ String (ascii_of_nat 10) EmptyString |}
    {| text_query := "pizza" |} true
    (fun _ => UpResponse 200%Z (inr (JObj []))) w0 =
  (internal_error,
   {| sent := [];
      logs := ["Error sending request to Google Places API: " ++
               "builder error: failed to parse header value"] |}).
Proof.
  apply (invalid_api_key_no_call (num:=Z) (f32:=Z)); reflexivity.
Defined.

Lemma routes_upstream_request_witness :
  exists req,
    sent (snd (get_routes (num:=Z) (f32:=Z) {| google_key := "k" |}
         {| origin_location := {| latitude := 1%Z; longitude := 2%Z |};
            destination_location := {| latitude := 3%Z; longitude := 4%Z |};
            departure_time := "t" |}
         (fun _ => UpResponse 200%Z (inr (JObj []))) w0)) = [req] /\
    method req = "POST" /\ url req = GOOGLE_ROUTES_URL /\
    headers req = [("content-type", ["application/json"; "application/json"]);
                   ("x-goog-fieldmask", [ROUTE_FIELD_MASK]);
                   ("x-goog-api-key", ["k"])].
Proof.
  apply (routes_upstream_request (num:=Z) (f32:=Z) {| google_key := "k" |}).
  reflexivity.
Defined.




Lemma validate_refuses_extensions_witness :
  validate {| text_query := "cafe " ++ "undefined" ++ " street" |} = false.
Proof.
  apply validate_refuses_extensions. reflexivity.
Defined.
